(** * Task Management API (flask-app-complete.py): model and properties

    The Flask handlers of [flask-app-complete.py] are embedded as functions
    over an explicit store (the module globals [tasks] and [task_counter]).
    A handler either returns a pair (body, status code) or raises a Python
    exception, which Flask turns into the 500 response of [internal_error].
    A request that Flask rejects inside [request.get_json()] (no JSON content
    type, undecodable body) never gets past that call; the handlers are
    modelled from the value [get_json] returns. *)

From Stdlib Require Import ZArith Floats.SpecFloat.
From stdpp Require Import gmap strings list.

Set Warnings "-register-all".
#[local] Open Scope Z_scope.

(** ** Python values *)

(** What [request.get_json()] can return: [None], or any decoded JSON value.
    A Python [str] is kept as its UTF-8 text; the handlers only test it for
    emptiness and for containing an ASCII key, which UTF-8 preserves. *)
Inductive json : Type :=
  | JNull
  | JBool (b : bool)
  | JInt (n : Z)
  | JFloat (f : spec_float)
  | JStr (s : string)
  | JArr (l : list json)
  | JObj (m : gmap string json).

Inductive exn : Type :=
  | TypeError
  | KeyError
  | AttributeError.

Module Py.

(** [bool(v)], as used by [not v]. *)
Definition truthy (v : json) : bool :=
  match v with
  | JNull => false
  | JBool b => b
  | JInt n => negb (n =? 0)
  | JFloat f => match f with S754_zero _ => false | _ => true end
  | JStr s => negb (String.eqb s "")
  | JArr l => match l with [] => false | _ :: _ => true end
  | JObj m => negb (bool_decide (m = ∅))
  end.

(** [p in s] for two strings: [p] occurs in [s] as a substring. *)
Fixpoint str_contains (p s : string) : bool :=
  if String.prefix p s then true
  else match s with
       | EmptyString => false
       | String _ s' => str_contains p s'
       end.

(** [v == key] for a string [key]: only an equal string compares equal. *)
Definition eq_str (key : string) (v : json) : bool :=
  match v with
  | JStr s => String.eqb s key
  | _ => false
  end.

(** [key in data]: key membership for a dict, element membership for a
    list, substring test for a str; the other types are not iterable. *)
Definition contains (key : string) (data : json) : exn + bool :=
  match data with
  | JObj m => inr (bool_decide (is_Some (m !! key)))
  | JArr l => inr (existsb (eq_str key) l)
  | JStr s => inr (str_contains key s)
  | JNull | JBool _ | JInt _ | JFloat _ => inl TypeError
  end.

(** [data[key]] for a string [key]. *)
Definition getitem (data : json) (key : string) : exn + json :=
  match data with
  | JObj m => match m !! key with
              | Some v => inr v
              | None => inl KeyError
              end
  | _ => inl TypeError
  end.

(** [data.get(key, default)]: only dicts have the method. *)
Definition get (data : json) (key : string) (default : json) : exn + json :=
  match data with
  | JObj m => inr (match m !! key with
                   | Some v => v
                   | None => default
                   end)
  | _ => inl AttributeError
  end.

(** [len(v)]. *)
Definition len (v : json) : exn + Z :=
  match v with
  | JStr s => inr (Z.of_nat (String.length s))
  | JArr l => inr (Z.of_nat (length l))
  | JObj m => inr (Z.of_nat (size m))
  | JNull | JBool _ | JInt _ | JFloat _ => inl TypeError
  end.

(** [isinstance(v, bool)]. *)
Definition is_bool (v : json) : bool :=
  match v with
  | JBool _ => true
  | _ => false
  end.

End Py.

(** ** Data model *)

(** A task dict; its five keys are fixed, so it is a record.  [title],
    [description] and [completed] hold whatever JSON value the request gave. *)
Module Task.
Record t : Type := mk {
  id : Z;
  title : json;
  description : json;
  completed : json;
  created_at : string
}.

Definition set_title (v : json) (x : t) : t :=
  mk (id x) v (description x) (completed x) (created_at x).
Definition set_description (v : json) (x : t) : t :=
  mk (id x) (title x) v (completed x) (created_at x).
Definition set_completed (v : json) (x : t) : t :=
  mk (id x) (title x) (description x) v (created_at x).
End Task.

(** The module globals. *)
Record Store : Type := mkStore {
  tasks : list Task.t;
  task_counter : Z
}.

(** The globals as the module initialises them. *)
Definition init : Store :=
  {| tasks :=
       [ Task.mk 1 (JStr "Setup CI/CD Pipeline") (JStr "Configure GitHub Actions")
                 (JBool false) "2024-01-15T10:00:00Z";
         Task.mk 2 (JStr "Write Unit Tests") (JStr "Create comprehensive test suite")
                 (JBool false) "2024-01-15T11:00:00Z" ];
     task_counter := 3 |}.

(** ** Responses *)

(** The dict handed to [jsonify], one constructor per shape. *)
Inductive body : Type :=
  | TasksBody (tasks : list Task.t) (count : Z) (status : string)
  | TaskBody (task : Task.t) (status : string)
  | ErrorBody (error : string)
  | NotFoundBody (error : string) (task_id : Z)
  | DeletedBody (message : string) (task_id : Z) (status : string).

(** How a handler call ends. *)
Inductive result : Type :=
  | Responded (b : body) (code : Z)
  | Raised (e : exn).

(** ** Handler monad: the store is threaded, [inr] ends the handler *)

Definition M (A : Type) : Type := Store → Store * (A + result).

#[export] Instance M_ret : MRet M := λ A a st, (st, inl a).
#[export] Instance M_bind : MBind M := λ A B f m st,
  match m st with
  | (st', inl a) => f a st'
  | (st', inr r) => (st', inr r)
  end.

(** [return r] before the end of the function. *)
Definition return_ {A} (r : result) : M A := λ st, (st, inr r).

(** A Python operation that may raise. *)
Definition lift {A} (x : exn + A) : M A := λ st,
  match x with
  | inl e => (st, inr (Raised e))
  | inr a => (st, inl a)
  end.

Definition gets {A} (f : Store → A) : M A := λ st, (st, inl (f st)).

(** [task[...] = v] where [task] is the dict at position [i] of [tasks]. *)
Definition modify_task (i : nat) (f : Task.t → Task.t) : M () := λ st,
  ({| tasks := alter f i (tasks st); task_counter := task_counter st |}, inl ()).

(** [tasks.append(t)]. *)
Definition append_task (t : Task.t) : M () := λ st,
  ({| tasks := tasks st ++ [t]; task_counter := task_counter st |}, inl ()).

(** [task_counter += 1]. *)
Definition incr_counter : M () := λ st,
  ({| tasks := tasks st; task_counter := task_counter st + 1 |}, inl ()).

(** [tasks = ts]. *)
Definition set_tasks (ts : list Task.t) : M () := λ st,
  ({| tasks := ts; task_counter := task_counter st |}, inl ()).

(** The dict [task] refers to. *)
Definition task_at (i : nat) (d : Task.t) : M Task.t :=
  gets (λ st, default d (tasks st !! i)).

Definition exec (m : M result) (st : Store) : Store * result :=
  match m st with
  | (st', inl r) => (st', r)
  | (st', inr r) => (st', r)
  end.

(** [next((t for t in tasks if t['id'] == task_id), None)]: the first match,
    with its position, which stands for the reference to the dict.  A task
    dict is never empty, so [not task] holds exactly for [None]. *)
Definition find_task (task_id : Z) (ts : list Task.t) : option (nat * Task.t) :=
  list_find (λ t, Task.id t = task_id) ts.

(** ** The handlers *)

Definition get_tasks : Store → Store * result :=
  exec (
    ts ← gets tasks;
    mret (Responded (TasksBody ts (Z.of_nat (length ts)) "success") 200)).

Definition get_task (task_id : Z) : Store → Store * result :=
  exec (
    ts ← gets tasks;
    match find_task task_id ts with
    | None => mret (Responded (NotFoundBody "Task not found" task_id) 404)
    | Some (_, task) => mret (Responded (TaskBody task "success") 200)
    end).

(** [now] is the text of [datetime.utcnow().isoformat()] at the call. *)
Definition create_task (data : json) (now : string) : Store → Store * result :=
  exec (
    if negb (Py.truthy data) then
      mret (Responded (ErrorBody "Request body is required") 400)
    else
      has_title ← lift (Py.contains "title" data);
      title_falsy ← (if has_title : bool then
                       v ← lift (Py.getitem data "title"); mret (negb (Py.truthy v))
                     else mret true);
      if title_falsy : bool then
        mret (Responded (ErrorBody "Title is required") 400)
      else
        title ← lift (Py.getitem data "title");
        n ← lift (Py.len title);
        if n <? 1 then
          mret (Responded (ErrorBody "Title cannot be empty") 400)
        else
          counter ← gets task_counter;
          title ← lift (Py.getitem data "title");
          description ← lift (Py.get data "description" (JStr ""));
          completed ← lift (Py.get data "completed" (JBool false));
          let new_task := Task.mk counter title description completed (now +:+ "Z") in
          append_task new_task ;;
          incr_counter ;;
          mret (Responded (TaskBody new_task "created") 201)).

Definition update_task (task_id : Z) (data : json) : Store → Store * result :=
  exec (
    ts ← gets tasks;
    match find_task task_id ts with
    | None => mret (Responded (NotFoundBody "Task not found" task_id) 404)
    | Some (i, task) =>
      if negb (Py.truthy data) then
        mret (Responded (ErrorBody "Request body is required") 400)
      else
        has_title ← lift (Py.contains "title" data);
        (if has_title : bool then
           v ← lift (Py.getitem data "title");
           if negb (Py.truthy v) then
             return_ (Responded (ErrorBody "Title cannot be empty") 400)
           else modify_task i (Task.set_title v)
         else mret ()) ;;
        has_description ← lift (Py.contains "description" data);
        (if has_description : bool then
           v ← lift (Py.getitem data "description");
           modify_task i (Task.set_description v)
         else mret ()) ;;
        has_completed ← lift (Py.contains "completed" data);
        (if has_completed : bool then
           v ← lift (Py.getitem data "completed");
           if negb (Py.is_bool v) then
             return_ (Responded (ErrorBody "Completed must be a boolean") 400)
           else modify_task i (Task.set_completed v)
         else mret ()) ;;
        task ← task_at i task;
        mret (Responded (TaskBody task "updated") 200)
    end).

Definition delete_task (task_id : Z) : Store → Store * result :=
  exec (
    ts ← gets tasks;
    match find_task task_id ts with
    | None => mret (Responded (NotFoundBody "Task not found" task_id) 404)
    | Some _ =>
      set_tasks (filter (λ t, Task.id t ≠ task_id) ts) ;;
      mret (Responded (DeletedBody "Task deleted successfully" task_id "deleted") 200)
    end).

(** ** Requests and runs *)

Inductive request : Type :=
  | GET_tasks
  | GET_task (task_id : Z)
  | POST_tasks (data : json) (now : string)
  | PUT_task (task_id : Z) (data : json)
  | DELETE_task (task_id : Z).

Definition handle (r : request) : Store → Store * result :=
  match r with
  | GET_tasks => get_tasks
  | GET_task task_id => get_task task_id
  | POST_tasks data now => create_task data now
  | PUT_task task_id data => update_task task_id data
  | DELETE_task task_id => delete_task task_id
  end.

(** Serve the requests in order; the results are logged in order. *)
Fixpoint run (rs : list request) (st : Store) : Store * list result :=
  match rs with
  | [] => (st, [])
  | r :: rs' =>
    let (st1, res) := handle r st in
    let (st2, log) := run rs' st1 in
    (st2, res :: log)
  end.

Definition reachable (st : Store) : Prop := ∃ rs, (run rs init).1 = st.

(** ** Reading the log *)

(** A 201 answer of [create_task]. *)
Definition is_created (r : result) : bool :=
  match r with
  | Responded (TaskBody _ _) 201 => true
  | _ => false
  end.

(** A 200 answer of [delete_task]. *)
Definition is_deleted (r : result) : bool :=
  match r with
  | Responded (DeletedBody _ _ _) 200 => true
  | _ => false
  end.

(** The ids handed out by the successful creates of a log, in order. *)
Fixpoint created_ids (log : list result) : list Z :=
  match log with
  | [] => []
  | Responded (TaskBody t _) 201 :: log' => Task.id t :: created_ids log'
  | _ :: log' => created_ids log'
  end.

Definition count (p : result → bool) (log : list result) : Z :=
  Z.of_nat (length (List.filter p log)).

(** The value [data[key]] has, when the lookup does not raise. *)
Definition item (data : json) (key : string) : option json :=
  match Py.getitem data key with
  | inr v => Some v
  | inl _ => None
  end.

(** The store invariant: ids are below the counter and pairwise distinct. *)
Definition ids (st : Store) : list Z := Task.id <$> tasks st.

Definition wf (st : Store) : Prop :=
  Forall (λ n, n < task_counter st) (ids st) ∧ NoDup (ids st).

(** ** Closed forms used in the statements *)

(** The task [create_task] builds from a dict payload. *)
Definition new_task (m : gmap string json) (title : json) (now : string)
    (st : Store) : Task.t :=
  Task.mk (task_counter st) title
          (default (JStr "") (m !! "description"))
          (default (JBool false) (m !! "completed"))
          (now +:+ "Z").

(** The store after the append and the increment. *)
Definition created (t : Task.t) (st : Store) : Store :=
  {| tasks := tasks st ++ [t]; task_counter := task_counter st + 1 |}.

(** [tasks] with the dict at position [i] replaced by [t]. *)
Definition put (i : nat) (t : Task.t) (st : Store) : Store :=
  {| tasks := <[i := t]> (tasks st); task_counter := task_counter st |}.

(** The task after the title and description steps of a dict payload. *)
Definition retitled (m : gmap string json) (task : Task.t) : Task.t :=
  Task.mk (Task.id task)
          (default (Task.title task) (m !! "title"))
          (default (Task.description task) (m !! "description"))
          (Task.completed task)
          (Task.created_at task).

(** What the completed step and the final return do. *)
Definition finish_update (i : nat) (m : gmap string json) (t : Task.t)
    (st : Store) : Store * result :=
  match m !! "completed" with
  | Some c =>
    if Py.is_bool c then
      (put i (Task.set_completed c t) st,
       Responded (TaskBody (Task.set_completed c t) "updated") 200)
    else (put i t st, Responded (ErrorBody "Completed must be a boolean") 400)
  | None => (put i t st, Responded (TaskBody t "updated") 200)
  end.

(** [1] for [True], [0] for [False]. *)
Definition Zb (b : bool) : Z := if b then 1 else 0.

(** What one handler call does to the invariant, the counter, the ids
    handed out and the number of stored tasks. *)
Definition effect (st : Store) (out : Store * result) : Prop :=
  wf out.1
  ∧ task_counter out.1 = task_counter st + Zb (is_created out.2)
  ∧ created_ids [out.2] = (if is_created out.2 then [task_counter st] else [])
  ∧ Z.of_nat (length (tasks out.1))
    = Z.of_nat (length (tasks st)) + Zb (is_created out.2) - Zb (is_deleted out.2).

(** ** Unfolding the monad *)

Ltac run_monad :=
  unfold exec, mbind, M_bind, mret, M_ret, return_, lift, gets, modify_task,
    append_task, incr_counter, set_tasks, task_at in *; cbn beta iota in *.

Section Python.

Lemma truthy_str s : Py.truthy (JStr s) = true ↔ s ≠ "".
Proof.
  cbn. rewrite negb_true_iff. destruct (String.eqb_spec s ""); naive_solver.
Qed.

Lemma truthy_obj m : Py.truthy (JObj m) = true ↔ m ≠ ∅.
Proof.
  cbn. rewrite negb_true_iff, bool_decide_eq_false. done.
Qed.

(** A truthy value that has a length has a positive one. *)
Lemma len_truthy v n : Py.truthy v = true → Py.len v = inr n → 1 ≤ n.
Proof.
  destruct v as [ | | | |s|l|m]; cbn; try done.
  - destruct s; cbn; [done|]. intros _ [= <-]. lia.
  - destruct l; cbn; [done|]. intros _ [= <-]. lia.
  - rewrite negb_true_iff, bool_decide_eq_false. intros Hm [= <-].
    destruct (decide (size m = 0%nat)) as [H0|H0]; [|lia].
    by apply map_size_empty_iff in H0.
Qed.

Lemma item_dict m key : item (JObj m) key = m !! key.
Proof. unfold item. cbn. by destruct (m !! key). Qed.

End Python.

(** ** create_task *)

Section Create.

(** Every call either leaves the store alone and answers something other
    than 201 and other than the length error, or creates. *)
Lemma create_task_cases data now st :
  (create_task data now st).1 = st
    ∧ is_created (create_task data now st).2 = false
    ∧ is_deleted (create_task data now st).2 = false
    ∧ (∀ code, (create_task data now st).2
                 ≠ Responded (ErrorBody "Title cannot be empty") code)
  ∨ ∃ m title,
      data = JObj m ∧ m !! "title" = Some title ∧ Py.truthy title = true
      ∧ create_task data now st
        = (created (new_task m title now st) st,
           Responded (TaskBody (new_task m title now st) "created") 201).
Proof.
  unfold create_task. run_monad.
  destruct (Py.truthy data) eqn:Hd; cbn; [|left; done].
  destruct data as [ | | | |s|l|m]; cbn in *; try (left; done).
  - destruct (Py.str_contains "title" s); left; done.
  - destruct (existsb _ l); left; done.
  - destruct (m !! "title") as [title|] eqn:Ht; cbn; [|left; done].
    destruct (Py.truthy title) eqn:Htt; cbn; [|left; done].
    destruct (Py.len title) as [e|n] eqn:Hn; cbn; [left; done|].
    pose proof (len_truthy _ _ Htt Hn).
    destruct (Z.ltb_spec n 1); [lia|]. cbn. right. by exists m, title.
Qed.

End Create.

(** ** update_task *)

Section Update.

Lemma alter_at {A} (f : A → A) (l : list A) i x :
  l !! i = Some x → alter f i l = <[i := f x]> l.
Proof.
  revert i. induction l as [|y l IH]; intros [|i] Hi; simplify_eq/=; [done|].
  f_equal. by apply IH.
Qed.

Lemma put_same i t st : tasks st !! i = Some t → put i t st = st.
Proof.
  intros Hi. destruct st as [ts c]. unfold put. cbn in *.
  by rewrite list_insert_id.
Qed.

Lemma find_task_lookup task_id ts i task :
  find_task task_id ts = Some (i, task) →
  ts !! i = Some task ∧ Task.id task = task_id.
Proof. intros (? & ? & _)%list_find_Some. done. Qed.

Lemma update_task_missing task_id data st :
  find_task task_id (tasks st) = None →
  update_task task_id data st
  = (st, Responded (NotFoundBody "Task not found" task_id) 404).
Proof. intros Hf. unfold update_task. run_monad. by rewrite Hf. Qed.

(** [update_task] on a stored task and a non-empty dict payload. *)
Lemma update_task_dict task_id m st i task :
  find_task task_id (tasks st) = Some (i, task) →
  m ≠ ∅ →
  update_task task_id (JObj m) st
  = match m !! "title" with
    | Some v =>
      if Py.truthy v then finish_update i m (retitled m task) st
      else (st, Responded (ErrorBody "Title cannot be empty") 400)
    | None => finish_update i m (retitled m task) st
    end.
Proof.
  intros Hf Hm. pose proof (find_task_lookup _ _ _ _ Hf) as [Hi _].
  pose proof (lookup_lt_Some _ _ _ Hi) as Hlt.
  apply truthy_obj in Hm.
  unfold update_task, finish_update, retitled. run_monad.
  rewrite Hf, Hm. cbn.
  destruct task as [n ti de co cr]. destruct st as [ts c]. cbn in *.
  destruct (m !! "title") as [v|]; cbn;
    [destruct (Py.truthy v); cbn; [|done]|];
    (destruct (m !! "description") as [d|]; cbn);
    (destruct (m !! "completed") as [b|]; cbn;
      [destruct (Py.is_bool b); cbn|]);
    unfold put; cbn;
    rewrite ?list_alter_alter_eq, ?(alter_at _ _ _ _ Hi);
    rewrite ?list_lookup_insert_eq by lia; rewrite ?Hi; cbn;
    rewrite ?(list_insert_id ts i _ Hi); reflexivity.
Qed.

End Update.

Section UpdateOther.

(** A payload that is not a dict: the handler answers 400 for a falsy one,
    raises when a key test or a subscript fails, and otherwise returns the
    task as it is.  The store is as before in every case. *)
Lemma update_task_not_dict task_id data st i task :
  find_task task_id (tasks st) = Some (i, task) →
  (∀ m, data ≠ JObj m) →
  (update_task task_id data st).1 = st
  ∧ ((update_task task_id data st).2 = Responded (TaskBody task "updated") 200
     ∨ (update_task task_id data st).2
       = Responded (ErrorBody "Request body is required") 400
     ∨ ∃ e, (update_task task_id data st).2 = Raised e).
Proof.
  intros Hf Hd. pose proof (find_task_lookup _ _ _ _ Hf) as [Hi _].
  unfold update_task. run_monad. rewrite Hf.
  destruct (Py.truthy data) eqn:Ht; cbn; [|by eauto].
  destruct data as [ | | | |s|l|m]; cbn in *; try by eauto.
  - destruct (Py.str_contains "title" s); cbn; [by eauto|].
    destruct (Py.str_contains "description" s); cbn; [by eauto|].
    destruct (Py.str_contains "completed" s); cbn; [by eauto|].
    rewrite Hi. by eauto.
  - destruct (existsb (Py.eq_str "title") l); cbn; [by eauto|].
    destruct (existsb (Py.eq_str "description") l); cbn; [by eauto|].
    destruct (existsb (Py.eq_str "completed") l); cbn; [by eauto|].
    rewrite Hi. by eauto.
  - by destruct (Hd m).
Qed.

Lemma update_task_empty_dict task_id st i task :
  find_task task_id (tasks st) = Some (i, task) →
  update_task task_id (JObj ∅) st
  = (st, Responded (ErrorBody "Request body is required") 400).
Proof. intros Hf. unfold update_task. run_monad. by rewrite Hf. Qed.

End UpdateOther.

(** ** get_task and delete_task *)

Section Delete.

Lemma find_task_None task_id ts :
  find_task task_id ts = None ↔ ∀ t, t ∈ ts → Task.id t ≠ task_id.
Proof. unfold find_task. rewrite list_find_None, Forall_forall. done. Qed.

Lemma get_task_missing task_id st :
  find_task task_id (tasks st) = None →
  get_task task_id st
  = (st, Responded (NotFoundBody "Task not found" task_id) 404).
Proof. intros Hf. unfold get_task. run_monad. by rewrite Hf. Qed.

Lemma get_task_found task_id st i task :
  find_task task_id (tasks st) = Some (i, task) →
  get_task task_id st = (st, Responded (TaskBody task "success") 200).
Proof. intros Hf. unfold get_task. run_monad. by rewrite Hf. Qed.

Lemma delete_task_missing task_id st :
  find_task task_id (tasks st) = None →
  delete_task task_id st
  = (st, Responded (NotFoundBody "Task not found" task_id) 404).
Proof. intros Hf. unfold delete_task. run_monad. by rewrite Hf. Qed.

Lemma delete_task_found task_id st i task :
  find_task task_id (tasks st) = Some (i, task) →
  delete_task task_id st
  = ({| tasks := filter (λ t, Task.id t ≠ task_id) (tasks st);
        task_counter := task_counter st |},
     Responded (DeletedBody "Task deleted successfully" task_id "deleted") 200).
Proof. intros Hf. unfold delete_task. run_monad. by rewrite Hf. Qed.

(** Filtering out an id that no element has keeps the list. *)
Lemma filter_absent task_id (l : list Task.t) :
  task_id ∉ Task.id <$> l → filter (λ t, Task.id t ≠ task_id) l = l.
Proof.
  induction l as [|x l IH]; [done|]. rewrite fmap_cons, not_elem_of_cons.
  intros [Hx Hl]. rewrite filter_cons_True by done. by rewrite IH.
Qed.

(** With distinct ids the comprehension of [delete_task] drops one element. *)
Lemma filter_unique (l1 l2 : list Task.t) t :
  NoDup (Task.id <$> (l1 ++ t :: l2)) →
  filter (λ x, Task.id x ≠ Task.id t) (l1 ++ t :: l2) = l1 ++ l2.
Proof.
  rewrite fmap_app, fmap_cons.
  intros (_ & Hdis & [Ht2 _]%NoDup_cons)%NoDup_app.
  rewrite filter_app, filter_cons_False by naive_solver.
  rewrite !filter_absent; [done..|].
  intros Hin. apply (Hdis _ Hin). left.
Qed.

End Delete.

(** ** The store invariant along a run *)

Section Invariant.

Lemma wf_init : wf init.
Proof.
  split; cbn.
  - repeat constructor.
  - apply (bool_decide_unpack _). by vm_compute.
Qed.

Lemma effect_same st res :
  wf st → is_created res = false → is_deleted res = false →
  effect st (st, res).
Proof.
  intros Hwf Hc Hd. unfold effect. cbn. rewrite Hc, Hd. cbn.
  split_and!; [done|lia| |lia].
  destruct res as [[]|]; try done. cbn in Hc.
  repeat case_match; done.
Qed.

Lemma ids_put i t task st :
  tasks st !! i = Some task → Task.id t = Task.id task →
  ids (put i t st) = ids st.
Proof.
  intros Hi Hid. unfold ids, put. cbn.
  rewrite list_fmap_insert, Hid. apply list_insert_id.
  by rewrite list_lookup_fmap, Hi.
Qed.

Lemma effect_put i t task st res :
  wf st → tasks st !! i = Some task → Task.id t = Task.id task →
  is_created res = false → is_deleted res = false →
  effect st (put i t st, res).
Proof.
  intros Hwf Hi Hid Hc Hd. unfold effect, wf. cbn [fst snd].
  rewrite (ids_put _ _ _ _ Hi Hid), Hc, Hd. cbn.
  rewrite length_insert. split_and!; [apply Hwf..|lia| |lia].
  destruct res as [[]|]; try done. cbn in Hc.
  repeat case_match; done.
Qed.

Lemma effect_get_tasks st : wf st → effect st (get_tasks st).
Proof. intros. by apply effect_same. Qed.

Lemma effect_get_task task_id st : wf st → effect st (get_task task_id st).
Proof.
  intros. destruct (find_task task_id (tasks st)) as [[i t]|] eqn:Hf.
  - rewrite (get_task_found _ _ _ _ Hf). by apply effect_same.
  - rewrite (get_task_missing _ _ Hf). by apply effect_same.
Qed.

Lemma effect_create_task data now st :
  wf st → effect st (create_task data now st).
Proof.
  intros Hwf.
  destruct (create_task_cases data now st)
    as [(Hst & Hc & Hd & _)|(m & title & _ & _ & _ & ->)].
  - destruct (create_task data now st) as [st' res]. cbn in *. subst st'.
    by apply effect_same.
  - destruct Hwf as [Hlt Hnd]. unfold effect, wf, ids, created. cbn.
    rewrite fmap_app, length_app. cbn. split_and!; [| |lia|done|lia].
    + apply Forall_app. split; [|repeat constructor; lia].
      eapply Forall_impl; [exact Hlt|]. cbn. lia.
    + apply NoDup_app. split_and!; [done| |apply NoDup_singleton].
      intros x Hx ->%list_elem_of_singleton.
      rewrite Forall_forall in Hlt. specialize (Hlt _ Hx). lia.
Qed.

Lemma effect_update_task task_id data st :
  wf st → effect st (update_task task_id data st).
Proof.
  intros Hwf. destruct (find_task task_id (tasks st)) as [[i task]|] eqn:Hf.
  2: { rewrite (update_task_missing _ _ _ Hf). by apply effect_same. }
  pose proof (find_task_lookup _ _ _ _ Hf) as [Hi _].
  destruct data as [ | | | |s|l|m].
  1-6: match goal with |- effect _ (update_task _ ?d _) =>
         destruct (update_task_not_dict task_id d st i task Hf) as [Hst Hres];
           [by intros ?|]
       end;
       destruct (update_task task_id _ st) as [st' res]; cbn in *; subst st';
       apply effect_same; [done|..];
       destruct Hres as [->|[->|[e ->]]]; done.
  destruct (decide (m = ∅)) as [->|Hm].
  { rewrite (update_task_empty_dict _ _ _ _ Hf). by apply effect_same. }
  rewrite (update_task_dict _ _ _ _ _ Hf Hm). unfold finish_update.
  repeat case_match;
    first [ by apply effect_same | by eapply effect_put ].
Qed.

Lemma effect_delete_task task_id st :
  wf st → effect st (delete_task task_id st).
Proof.
  intros Hwf. destruct (find_task task_id (tasks st)) as [[i task]|] eqn:Hf.
  2: { rewrite (delete_task_missing _ _ Hf). by apply effect_same. }
  rewrite (delete_task_found _ _ _ _ Hf).
  pose proof (find_task_lookup _ _ _ _ Hf) as [Hi <-].
  apply list_elem_of_lookup_2, list_elem_of_split in Hi as (l1 & l2 & Hl).
  destruct Hwf as [Hlt Hnd]. unfold effect, wf, ids in *. cbn.
  rewrite Hl in *. rewrite filter_unique by done.
  rewrite !fmap_app, !fmap_cons in *. rewrite !length_app. cbn.
  apply Forall_app in Hlt as [Hlt1 [_ Hlt2]%Forall_cons].
  split_and!; [by apply Forall_app| |lia|done|lia].
  apply NoDup_app in Hnd as (Hn1 & Hdis & [_ Hn2]%NoDup_cons).
  apply NoDup_app. split_and!; [done| |done].
  intros x Hx Hx2. apply (Hdis x Hx). by right.
Qed.

Lemma effect_handle r st : wf st → effect st (handle r st).
Proof.
  destruct r; cbn;
    auto using effect_get_tasks, effect_get_task, effect_create_task,
               effect_update_task, effect_delete_task.
Qed.

End Invariant.

Section Runs.

Lemma created_ids_cons res log :
  created_ids (res :: log) = created_ids [res] ++ created_ids log.
Proof.
  destruct res as [[| t s| | |] code|]; try done.
  cbn. repeat case_match; done.
Qed.

Lemma count_cons p res log : count p (res :: log) = Zb (p res) + count p log.
Proof.
  unfold count. cbn. destruct (p res); cbn [Zb length]; lia.
Qed.

Lemma count_nonneg p log : 0 ≤ count p log.
Proof. unfold count. lia. Qed.

Lemma run_cons r rs st :
  run (r :: rs) st
  = ((run rs (handle r st).1).1, (handle r st).2 :: (run rs (handle r st).1).2).
Proof.
  cbn. destruct (handle r st) as [st1 res]. cbn.
  by destruct (run rs st1) as [st2 log].
Qed.

(** Along a run the invariant is kept, the ids handed out are the
    consecutive counter values, and the number of stored tasks moves by
    the successful creates and deletes. *)
Lemma run_effect rs st :
  wf st →
  wf (run rs st).1
  ∧ task_counter (run rs st).1
    = task_counter st + count is_created (run rs st).2
  ∧ created_ids (run rs st).2
    = seqZ (task_counter st) (count is_created (run rs st).2)
  ∧ Z.of_nat (length (tasks (run rs st).1))
    = Z.of_nat (length (tasks st))
      + count is_created (run rs st).2 - count is_deleted (run rs st).2.
Proof.
  revert st. induction rs as [|r rs IH]; intros st Hwf.
  - cbn. unfold count. cbn. split_and!; [done|lia|done|lia].
  - rewrite run_cons. cbn [fst snd].
    destruct (effect_handle r st Hwf) as (Hwf1 & Hc1 & Hids1 & Hlen1).
    destruct (IH _ Hwf1) as (Hwf2 & Hc2 & Hids2 & Hlen2).
    rewrite created_ids_cons, !count_cons, Hids1, Hids2, Hc2, Hlen2, Hc1, Hlen1.
    split_and!; [done|lia| |lia].
    pose proof (count_nonneg is_created (run rs (handle r st).1).2).
    destruct (is_created (handle r st).2); cbn [Zb app].
    + rewrite (seqZ_cons (task_counter st)) by lia. repeat f_equal; lia.
    + f_equal; lia.
Qed.

Lemma reachable_wf st : reachable st → wf st.
Proof. intros [rs <-]. apply run_effect, wf_init. Qed.

End Runs.

(** ** Properties of create_task *)

Section CreateProperties.

(** [create_task] succeeds on a dict whose title is truthy and has a
    length (a str, a list or a dict). *)
Lemma create_task_sized m title n now st :
  m !! "title" = Some title → Py.truthy title = true → Py.len title = inr n →
  create_task (JObj m) now st
  = (created (new_task m title now st) st,
     Responded (TaskBody (new_task m title now st) "created") 201).
Proof.
  intros Ht Htt Hn. pose proof (len_truthy _ _ Htt Hn).
  assert (Py.truthy (JObj m) = true) as Hm.
  { apply truthy_obj. intros ->. by rewrite lookup_empty in Ht. }
  unfold create_task. run_monad. rewrite Hm. cbn. rewrite Ht. cbn.
  rewrite Htt, Hn. cbn. destruct (Z.ltb_spec n 1); [lia|]. done.
Qed.

(** A truthy title without a length (a number, [True]) makes [len] raise;
    the store is untouched. *)
Lemma create_task_number_title :
  create_task (JObj {[ "title" := JInt 5 ]}) "2024-02-01T09:30:00" init
  = (init, Raised TypeError).
Proof. by vm_compute. Qed.

End CreateProperties.

(** X22. For every dict payload whose title is a non-empty string,
    [create_task] answers 201 with a new task whose id is the counter value
    at the start of the call, whose created_at is the UTC clock reading
    followed by Z, whose description is the payload's or the empty string,
    and whose completed is the payload's or False; the counter grows by one
    and the new task is appended after the stored tasks, which stay as they
    were and in order. *)
Theorem create_task_success (m : gmap string json) (s now : string) (st : Store) :
  m !! "title" = Some (JStr s) →
  s ≠ "" →
  let t := {| Task.id := task_counter st;
              Task.title := JStr s;
              Task.description := default (JStr "") (m !! "description");
              Task.completed := default (JBool false) (m !! "completed");
              Task.created_at := now +:+ "Z" |} in
  create_task (JObj m) now st
  = ({| tasks := tasks st ++ [t]; task_counter := task_counter st + 1 |},
     Responded (TaskBody t "created") 201).
Proof.
  intros Ht Hs t.
  apply (create_task_sized m (JStr s) (Z.of_nat (String.length s))); [done| |done].
  by apply truthy_str.
Qed.

Lemma create_task_success_witness :
  create_task (JObj {[ "title" := JStr "New Task" ]}) "2024-02-01T09:30:00" init
  = ({| tasks := tasks init
                 ++ [Task.mk 3 (JStr "New Task") (JStr "") (JBool false)
                             "2024-02-01T09:30:00Z"];
        task_counter := 4 |},
     Responded (TaskBody (Task.mk 3 (JStr "New Task") (JStr "") (JBool false)
                                  "2024-02-01T09:30:00Z") "created") 201).
Proof.
  etrans.
  - apply (create_task_success {[ "title" := JStr "New Task" ]} "New Task"
             "2024-02-01T09:30:00" init).
    + reflexivity.
    + discriminate.
  - vm_compute. reflexivity.
Defined.

(** C1, where the code departs from it.  The payload [{"title": 5}] has a
    truthy title, so it passes the body test and the title test; the
    length test then calls [len] on the number, which raises [TypeError],
    and no task is created.  [update_task] has no length test and stores
    the same title with a 200 answer. *)
Theorem create_task_truthy_title_raises :
  create_task (JObj {[ "title" := JInt 5 ]}) "2024-02-01T09:30:00" init
  = (init, Raised TypeError)
  ∧ update_task 1 (JObj {[ "title" := JInt 5 ]}) init
    = ({| tasks :=
            [ Task.mk 1 (JInt 5) (JStr "Configure GitHub Actions")
                      (JBool false) "2024-01-15T10:00:00Z";
              Task.mk 2 (JStr "Write Unit Tests")
                      (JStr "Create comprehensive test suite")
                      (JBool false) "2024-01-15T11:00:00Z" ];
          task_counter := 3 |},
       Responded (TaskBody (Task.mk 1 (JInt 5) (JStr "Configure GitHub Actions")
                                    (JBool false) "2024-01-15T10:00:00Z")
                           "updated") 200).
Proof. split; by vm_compute. Qed.

(** C8. Whenever [create_task] answers 400, the store is as it was: no task
    is appended, the number of tasks is the same and the counter has not
    moved. *)
Theorem create_task_invalid_unchanged (data : json) (now msg : string) (st : Store) :
  (create_task data now st).2 = Responded (ErrorBody msg) 400 →
  (create_task data now st).1 = st
  ∧ tasks (create_task data now st).1 = tasks st
  ∧ length (tasks (create_task data now st).1) = length (tasks st)
  ∧ task_counter (create_task data now st).1 = task_counter st.
Proof.
  intros Hres.
  destruct (create_task_cases data now st) as [(-> & _)|(m & title & _ & _ & _ & Heq)].
  - done.
  - rewrite Heq in Hres. done.
Qed.

Lemma create_task_invalid_unchanged_witness :
  (create_task (JObj {[ "title" := JStr "" ]}) "2024-02-01T09:30:00" init).2
  = Responded (ErrorBody "Title is required") 400
  ∧ (create_task (JObj {[ "title" := JStr "" ]}) "2024-02-01T09:30:00" init).1 = init.
Proof.
  split; [reflexivity|].
  apply (create_task_invalid_unchanged (JObj {[ "title" := JStr "" ]})
           "2024-02-01T09:30:00" "Title is required" init).
  reflexivity.
Defined.

(** C10. [create_task] never answers with the error "Title cannot be
    empty", whatever the payload: a title that reaches the length test is
    truthy, so its length is at least one. *)
Theorem create_task_length_guard_dead (data : json) (now : string) (st : Store)
    (code : Z) :
  (create_task data now st).2 ≠ Responded (ErrorBody "Title cannot be empty") code.
Proof.
  destruct (create_task_cases data now st)
    as [(_ & _ & _ & Hne)|(m & title & _ & _ & _ & ->)].
  - apply Hne.
  - done.
Qed.

(** C5, as the claim states it, fails: an empty JSON object is falsy, so
    [create_task] answers with the body error, not with the title error. *)
Lemma create_task_empty_object :
  (create_task (JObj ∅) "2024-02-01T09:30:00" init).2
  = Responded (ErrorBody "Request body is required") 400
  ∧ (create_task (JObj ∅) "2024-02-01T09:30:00" init).2
    ≠ Responded (ErrorBody "Title is required") 400.
Proof. split; [reflexivity|discriminate]. Qed.

(** C5, amended. [create_task] answers with the body error exactly when the
    payload is falsy (None, false, 0, an empty string, list or dict); for a
    non-empty dict without the key title it answers with the title error
    and leaves the store as it was. *)
Theorem create_task_body_or_title (data : json) (now : string) (st : Store) :
  ((create_task data now st).2 = Responded (ErrorBody "Request body is required") 400
   ↔ Py.truthy data = false)
  ∧ (∀ m, data = JObj m → m ≠ ∅ → m !! "title" = None →
       create_task data now st = (st, Responded (ErrorBody "Title is required") 400)).
Proof.
  split.
  - split.
    + destruct (create_task_cases data now st)
        as [_|(m & title & -> & Ht & Htt & ->)]; [|done].
      unfold create_task. run_monad.
      destruct (Py.truthy data) eqn:Hd; [|done]. cbn.
      destruct data as [ | | | |s|l|m]; cbn in *; try done.
      * by destruct (Py.str_contains "title" s).
      * by destruct (existsb _ l).
      * destruct (m !! "title") as [title|]; cbn; [|done].
        destruct (Py.truthy title); cbn; [|done].
        destruct (Py.len title) as [e|n]; cbn; [done|].
        by destruct (n <? 1).
    + intros Hd. unfold create_task. run_monad. by rewrite Hd.
  - intros m -> Hm Ht. apply truthy_obj in Hm.
    unfold create_task. run_monad. rewrite Hm. cbn. by rewrite Ht.
Qed.

Lemma create_task_body_or_title_witness :
  create_task (JObj {[ "description" := JStr "no title" ]}) "2024-02-01T09:30:00" init
  = (init, Responded (ErrorBody "Title is required") 400)
  ∧ (create_task JNull "2024-02-01T09:30:00" init).2
    = Responded (ErrorBody "Request body is required") 400.
Proof.
  split.
  - apply (proj2 (create_task_body_or_title
                    (JObj {[ "description" := JStr "no title" ]})
                    "2024-02-01T09:30:00" init)
                 {[ "description" := JStr "no title" ]}).
    + reflexivity.
    + intros H. apply (f_equal (lookup "description")) in H. discriminate H.
    + reflexivity.
  - apply (proj1 (create_task_body_or_title JNull "2024-02-01T09:30:00" init)).
    reflexivity.
Defined.

(** ** Properties of update_task *)

(** C4. When no stored task has the requested id, [update_task] answers 404
    with that id and leaves the store as it was, whatever the payload is:
    the search comes before the payload is looked at. *)
Theorem update_task_not_found (task_id : Z) (data : json) (st : Store) :
  (∀ t, t ∈ tasks st → Task.id t ≠ task_id) →
  update_task task_id data st
  = (st, Responded (NotFoundBody "Task not found" task_id) 404).
Proof.
  intros Hno. by apply update_task_missing, find_task_None.
Qed.

Lemma update_task_not_found_witness :
  update_task 9999 (JObj {[ "title" := JStr "" ]}) init
  = (init, Responded (NotFoundBody "Task not found" 9999) 404)
  ∧ update_task 9999 JNull init
    = (init, Responded (NotFoundBody "Task not found" 9999) 404)
  ∧ update_task 9999 (JObj {[ "completed" := JStr "yes" ]}) init
    = (init, Responded (NotFoundBody "Task not found" 9999) 404).
Proof.
  assert (∀ t, t ∈ tasks init → Task.id t ≠ 9999) as Hno.
  { intros t Ht. cbn in Ht.
    apply elem_of_cons in Ht as [->|Ht]; [discriminate|].
    apply elem_of_cons in Ht as [->|Ht]; [discriminate|].
    by apply elem_of_nil in Ht. }
  split_and!.
  - apply (update_task_not_found 9999 (JObj {[ "title" := JStr "" ]}) init Hno).
  - apply (update_task_not_found 9999 JNull init Hno).
  - apply (update_task_not_found 9999 (JObj {[ "completed" := JStr "yes" ]}) init Hno).
Defined.

(** C3, as the claim states it, fails: when the payload also gives an empty
    title, the title check fails first and the answer is the title error. *)
Lemma update_task_empty_title_first :
  update_task 1 (JObj {[ "title" := JStr ""; "completed" := JStr "yes" ]}) init
  = (init, Responded (ErrorBody "Title cannot be empty") 400)
  ∧ (update_task 1 (JObj {[ "title" := JStr ""; "completed" := JStr "yes" ]}) init).2
    ≠ Responded (ErrorBody "Completed must be a boolean") 400.
Proof. split; [by vm_compute|by vm_compute]. Qed.

(** C3, amended. For a stored task and a dict payload whose completed is
    not a bool and whose title, when given, is truthy, [update_task]
    answers 400 "Completed must be a boolean"; the stored completed value
    is as before, while the title and the description the payload gives
    are already written into the stored task, and nothing else changes. *)
Theorem update_task_bad_completed (task_id : Z) (m : gmap string json)
    (st : Store) (i : nat) (task : Task.t) (c : json) :
  find_task task_id (tasks st) = Some (i, task) →
  m !! "completed" = Some c →
  Py.is_bool c = false →
  (∀ v, m !! "title" = Some v → Py.truthy v = true) →
  let t := {| Task.id := Task.id task;
              Task.title := default (Task.title task) (m !! "title");
              Task.description := default (Task.description task) (m !! "description");
              Task.completed := Task.completed task;
              Task.created_at := Task.created_at task |} in
  update_task task_id (JObj m) st
  = ({| tasks := <[i := t]> (tasks st); task_counter := task_counter st |},
     Responded (ErrorBody "Completed must be a boolean") 400).
Proof.
  intros Hf Hc Hb Ht t.
  assert (m ≠ ∅) as Hm by (intros ->; by rewrite lookup_empty in Hc).
  rewrite (update_task_dict _ _ _ _ _ Hf Hm). unfold finish_update.
  rewrite Hc, Hb. subst t. unfold put, retitled.
  destruct (m !! "title") as [v|] eqn:Hv; [|done].
  by rewrite (Ht v eq_refl).
Qed.

Lemma update_task_bad_completed_witness :
  update_task 1 (JObj {[ "title" := JStr "Renamed"; "completed" := JStr "yes" ]}) init
  = ({| tasks :=
          [ Task.mk 1 (JStr "Renamed") (JStr "Configure GitHub Actions")
                    (JBool false) "2024-01-15T10:00:00Z";
            Task.mk 2 (JStr "Write Unit Tests") (JStr "Create comprehensive test suite")
                    (JBool false) "2024-01-15T11:00:00Z" ];
        task_counter := 3 |},
     Responded (ErrorBody "Completed must be a boolean") 400).
Proof.
  etrans.
  - apply (update_task_bad_completed 1
             {[ "title" := JStr "Renamed"; "completed" := JStr "yes" ]} init 0%nat
             (Task.mk 1 (JStr "Setup CI/CD Pipeline") (JStr "Configure GitHub Actions")
                      (JBool false) "2024-01-15T10:00:00Z")
             (JStr "yes")).
    + reflexivity.
    + reflexivity.
    + reflexivity.
    + intros v Hv. vm_compute in Hv. injection Hv as <-. reflexivity.
  - vm_compute. reflexivity.
Defined.

(** C6. When [update_task] answers 200, the returned task is the stored one
    with each of title, description and completed replaced by the payload's
    value where the payload has the key and kept where it does not; its id
    and created_at are those of the stored task; the store holds the
    returned task at the stored task's position, every other position is
    as before, and the counter has not moved. *)
Theorem update_task_frame (task_id : Z) (data : json) (st st' : Store)
    (t' : Task.t) :
  update_task task_id data st = (st', Responded (TaskBody t' "updated") 200) →
  ∃ i task,
    find_task task_id (tasks st) = Some (i, task)
    ∧ t' = {| Task.id := Task.id task;
              Task.title := default (Task.title task) (item data "title");
              Task.description :=
                default (Task.description task) (item data "description");
              Task.completed := default (Task.completed task) (item data "completed");
              Task.created_at := Task.created_at task |}
    ∧ Task.id t' = task_id
    ∧ tasks st' = <[i := t']> (tasks st)
    ∧ (∀ j, j ≠ i → tasks st' !! j = tasks st !! j)
    ∧ task_counter st' = task_counter st.
Proof.
  intros Hup.
  destruct (find_task task_id (tasks st)) as [[i task]|] eqn:Hf.
  2: { by rewrite (update_task_missing _ _ _ Hf) in Hup. }
  pose proof (find_task_lookup _ _ _ _ Hf) as [Hi Hid].
  exists i, task. split; [done|].
  assert (t' = Task.mk (Task.id task)
                 (default (Task.title task) (item data "title"))
                 (default (Task.description task) (item data "description"))
                 (default (Task.completed task) (item data "completed"))
                 (Task.created_at task)
          ∧ st' = put i t' st) as [Ht' ->].
  { assert ((∃ m, data = JObj m) ∨ ∀ m, data ≠ JObj m) as [[m ->]|Hnd]
      by (destruct data; eauto).
    - destruct (decide (m = ∅)) as [->|Hm].
      { by rewrite (update_task_empty_dict _ _ _ _ Hf) in Hup. }
      rewrite (update_task_dict _ _ _ _ _ Hf Hm) in Hup.
      rewrite !item_dict.
      unfold finish_update, retitled, Task.set_completed in *. cbn in *.
      destruct (m !! "title") as [v|]; [destruct (Py.truthy v); [|done]|];
        (destruct (m !! "completed") as [c|]; [destruct (Py.is_bool c); [|done]|]);
        by simplify_eq.
    - destruct (update_task_not_dict task_id data st i task Hf Hnd) as [Hst Hres].
      rewrite Hup in Hst, Hres. cbn in *. subst st'.
      destruct Hres as [[= ->]|[?|[e ?]]]; [|done..].
      assert (∀ key, item data key = None) as Hitem.
      { intros key. unfold item. destruct data; try done. by edestruct Hnd. }
      rewrite !Hitem. cbn. split; [by destruct task|]. by rewrite put_same. }
  split_and!; [done|by rewrite Ht'|done| |done].
  intros j Hj. cbn. by rewrite list_lookup_insert_ne.
Qed.

Lemma update_task_frame_witness :
  ∃ i task,
    find_task 2 (tasks init) = Some (i, task)
    ∧ tasks (update_task 2 (JObj {[ "completed" := JBool true ]}) init).1
      = <[i := Task.set_completed (JBool true) task]> (tasks init).
Proof.
  destruct (update_task_frame 2 (JObj {[ "completed" := JBool true ]}) init
              (update_task 2 (JObj {[ "completed" := JBool true ]}) init).1
              (Task.mk 2 (JStr "Write Unit Tests")
                       (JStr "Create comprehensive test suite")
                       (JBool true) "2024-01-15T11:00:00Z"))
    as (i & task & Hf & Ht & _ & Hts & _).
  - vm_compute. reflexivity.
  - exists i, task. split; [exact Hf|].
    rewrite Hts. rewrite Ht. reflexivity.
Defined.

(** ** Properties of delete_task, get_tasks and runs *)

(** C7. In a store reached from the initial one: when no stored task has
    the id, [delete_task] answers 404 with that id and changes nothing;
    when a stored task has it, that task is the only element taken out of
    the list, the others keep their values and their order, the answer is
    200, and [get_task] with the same id then answers 404. *)
Theorem delete_task_removes_one (task_id : Z) (st : Store) :
  reachable st →
  ((∀ t, t ∈ tasks st → Task.id t ≠ task_id) →
   delete_task task_id st
   = (st, Responded (NotFoundBody "Task not found" task_id) 404))
  ∧ (∀ t, t ∈ tasks st → Task.id t = task_id →
     ∃ l1 l2,
       tasks st = l1 ++ t :: l2
       ∧ delete_task task_id st
         = ({| tasks := l1 ++ l2; task_counter := task_counter st |},
            Responded (DeletedBody "Task deleted successfully" task_id "deleted") 200)
       ∧ get_task task_id (delete_task task_id st).1
         = ((delete_task task_id st).1,
            Responded (NotFoundBody "Task not found" task_id) 404)).
Proof.
  intros [_ Hnd]%reachable_wf. split.
  - intros Hno. by apply delete_task_missing, find_task_None.
  - intros t Ht Hid. apply list_elem_of_split in Ht as (l1 & l2 & Hl).
    exists l1, l2. split; [done|].
    destruct (find_task task_id (tasks st)) as [[i task]|] eqn:Hf.
    2: { rewrite find_task_None in Hf. destruct (Hf t); [|done].
         rewrite Hl. set_solver. }
    rewrite (delete_task_found _ _ _ _ Hf). cbn [fst].
    unfold ids in Hnd. rewrite Hl in Hnd |- *. subst task_id.
    rewrite (filter_unique _ _ _ Hnd). split; [done|].
    apply get_task_missing, find_task_None. cbn [tasks].
    intros x Hx Heq.
    rewrite fmap_app, fmap_cons in Hnd.
    apply NoDup_app in Hnd as (_ & Hdis & [Ht2 _]%NoDup_cons).
    apply elem_of_app in Hx as [Hx|Hx].
    + apply (Hdis (Task.id x)); [by apply list_elem_of_fmap_2|]. rewrite Heq. left.
    + apply Ht2. rewrite <- Heq. by apply list_elem_of_fmap_2.
Qed.

Lemma delete_task_removes_one_witness :
  reachable init
  ∧ delete_task 9999 init
    = (init, Responded (NotFoundBody "Task not found" 9999) 404)
  ∧ ∃ l1 l2,
      tasks init
      = l1 ++ Task.mk 1 (JStr "Setup CI/CD Pipeline") (JStr "Configure GitHub Actions")
                      (JBool false) "2024-01-15T10:00:00Z" :: l2
      ∧ delete_task 1 init
        = ({| tasks := l1 ++ l2; task_counter := task_counter init |},
           Responded (DeletedBody "Task deleted successfully" 1 "deleted") 200)
      ∧ get_task 1 (delete_task 1 init).1
        = ((delete_task 1 init).1,
           Responded (NotFoundBody "Task not found" 1) 404).
Proof.
  assert (reachable init) as Hr by (exists []; reflexivity).
  split_and!.
  - exact Hr.
  - apply (proj1 (delete_task_removes_one 9999 init Hr)).
    intros t Ht. cbn in Ht.
    apply elem_of_cons in Ht as [->|Ht]; [discriminate|].
    apply elem_of_cons in Ht as [->|Ht]; [discriminate|].
    by apply elem_of_nil in Ht.
  - apply (proj2 (delete_task_removes_one 1 init Hr)).
    + cbn. left.
    + reflexivity.
Defined.

(** C9. [get_tasks] always answers 200, leaves the store as it is, and
    returns the stored tasks in list order with their number as count;
    after any run from the initial store that number is the initial one
    plus the successful creates minus the successful deletes. *)
Theorem get_tasks_count :
  (∀ st, get_tasks st
         = (st, Responded (TasksBody (tasks st) (Z.of_nat (length (tasks st)))
                                     "success") 200))
  ∧ (∀ rs,
       (get_tasks (run rs init).1).2
       = Responded
           (TasksBody (tasks (run rs init).1)
                      (Z.of_nat (length (tasks init))
                       + count is_created (run rs init).2
                       - count is_deleted (run rs init).2)
                      "success") 200).
Proof.
  split; [done|]. intros rs.
  destruct (run_effect rs init wf_init) as (_ & _ & _ & Hlen).
  unfold get_tasks. run_monad. cbn [snd]. by rewrite Hlen.
Qed.

(** C2. Along any run from the initial store, the ids of the seed tasks
    and of all tasks created during the run are pairwise distinct, whatever
    updates and deletes come in between; and each create hands out the
    next counter value, so no id comes back after a delete. *)
Theorem created_ids_distinct (rs : list request) :
  NoDup (ids init ++ created_ids (run rs init).2)
  ∧ created_ids (run rs init).2
    = seqZ (task_counter init) (count is_created (run rs init).2).
Proof.
  destruct (run_effect rs init wf_init) as (_ & _ & Hids & _).
  split; [|done]. rewrite Hids. apply NoDup_app. split_and!.
  - apply wf_init.
  - intros x Hx [Hge _]%elem_of_seqZ.
    destruct wf_init as [Hlt _]. rewrite Forall_forall in Hlt.
    specialize (Hlt _ Hx). lia.
  - apply NoDup_seqZ.
Qed.

(** ** Looking tasks up after a change *)

Section Lookup.

Lemma get_task_eq task_id st :
  get_task task_id st
  = (st, match find_task task_id (tasks st) with
         | Some (_, t) => Responded (TaskBody t "success") 200
         | None => Responded (NotFoundBody "Task not found" task_id) 404
         end).
Proof.
  unfold get_task. run_monad. by destruct (find_task _ _) as [[i t]|].
Qed.

(** With distinct ids the search finds the very task that carries the id. *)
Lemma find_task_unique (l : list Task.t) t :
  NoDup (Task.id <$> l) → t ∈ l → ∃ i, find_task (Task.id t) l = Some (i, t).
Proof.
  intros Hnd Ht.
  destruct (list_find_elem_of (λ x, Task.id x = Task.id t) l t Ht eq_refl)
    as [[i t'] Hf].
  exists i. unfold find_task. rewrite Hf. do 2 f_equal.
  apply list_find_Some in Hf as (Hi & Hid & _).
  apply list_elem_of_lookup in Ht as [j Hj].
  assert (i = j) as ->; [|congruence].
  apply (NoDup_lookup (Task.id <$> l) i j (Task.id t)); [done|..].
  - by rewrite list_lookup_fmap, Hi, <- Hid.
  - by rewrite list_lookup_fmap, Hj.
Qed.

Lemma find_task_filter task_id other (l : list Task.t) :
  other ≠ task_id →
  snd <$> find_task other (filter (λ t, Task.id t ≠ task_id) l)
  = snd <$> find_task other l.
Proof.
  intros Hne. unfold find_task.
  induction l as [|x l IH]; [done|].
  destruct (decide (Task.id x = task_id)) as [Hx|Hx].
  - rewrite filter_cons_False by naive_solver. cbn.
    rewrite decide_False by congruence.
    rewrite IH, <- option_fmap_compose. by apply option_fmap_ext; intros [].
  - rewrite filter_cons_True by done. cbn. case_decide; [done|].
    rewrite <- !option_fmap_compose.
    etrans; [|etrans; [exact IH|]]; by apply option_fmap_ext; intros [].
Qed.

Lemma find_task_insert other (l : list Task.t) i task t :
  l !! i = Some task → Task.id task ≠ other → Task.id t ≠ other →
  snd <$> find_task other (<[i := t]> l) = snd <$> find_task other l.
Proof.
  unfold find_task. revert i.
  induction l as [|x l IH]; intros [|i] Hi Hn1 Hn2; simplify_eq/=.
  - by rewrite !decide_False by done.
  - case_decide; [done|]. rewrite <- !option_fmap_compose.
    etrans; [|etrans; [exact (IH i Hi Hn1 Hn2)|]];
      by apply option_fmap_ext; intros [].
Qed.

Lemma find_task_snoc other (l : list Task.t) t :
  Task.id t ≠ other →
  snd <$> find_task other (l ++ [t]) = snd <$> find_task other l.
Proof.
  intros Hne. unfold find_task. induction l as [|x l IH]; cbn.
  - by rewrite decide_False by done.
  - case_decide; [done|]. rewrite <- !option_fmap_compose.
    etrans; [|etrans; [exact IH|]]; by apply option_fmap_ext; intros [].
Qed.

(** The answer of [get_task] depends only on the task found. *)
Lemma get_task_same_found task_id st1 st2 :
  snd <$> find_task task_id (tasks st1) = snd <$> find_task task_id (tasks st2) →
  (get_task task_id st1).2 = (get_task task_id st2).2.
Proof.
  rewrite !get_task_eq. cbn.
  destruct (find_task task_id (tasks st1)) as [[i1 t1]|],
           (find_task task_id (tasks st2)) as [[i2 t2]|]; cbn; congruence.
Qed.

(** Replacing the found task by one with the same id: the search finds the
    new one at the same place. *)
Lemma find_task_put task_id (l : list Task.t) i task t :
  find_task task_id l = Some (i, task) → Task.id t = task_id →
  find_task task_id (<[i := t]> l) = Some (i, t).
Proof.
  intros (Hi & Hid & Hbefore)%list_find_Some Ht.
  apply list_find_Some. split_and!.
  - apply list_lookup_insert_eq. by eapply lookup_lt_Some.
  - done.
  - intros j y Hj Hlt. rewrite list_lookup_insert_ne in Hj by lia. eauto.
Qed.

End Lookup.

(** ** Further properties: get_task *)

(** X1. In a store reached from the initial one, [get_task] with the id of
    a stored task answers 200 with exactly that task and leaves the store
    as it is. *)
Theorem get_task_returns_stored (st : Store) (t : Task.t) :
  reachable st →
  t ∈ tasks st →
  get_task (Task.id t) st = (st, Responded (TaskBody t "success") 200).
Proof.
  intros [_ Hnd]%reachable_wf Ht.
  destruct (find_task_unique _ _ Hnd Ht) as [i Hf].
  by apply (get_task_found _ _ i).
Qed.

Lemma get_task_returns_stored_witness :
  get_task 2 init
  = (init,
     Responded (TaskBody (Task.mk 2 (JStr "Write Unit Tests")
                                  (JStr "Create comprehensive test suite")
                                  (JBool false) "2024-01-15T11:00:00Z")
                         "success") 200).
Proof.
  apply (get_task_returns_stored init
           (Task.mk 2 (JStr "Write Unit Tests") (JStr "Create comprehensive test suite")
                    (JBool false) "2024-01-15T11:00:00Z")).
  - exists []. reflexivity.
  - cbn. right. left.
Defined.

(** X2. [get_task] never changes the store and never raises; it answers
    404 with the requested id exactly when no stored task has that id, and
    otherwise 200 with a stored task that has the id. *)
Theorem get_task_not_found_iff (task_id : Z) (st : Store) :
  (get_task task_id st).1 = st
  ∧ ((get_task task_id st).2 = Responded (NotFoundBody "Task not found" task_id) 404
     ↔ ∀ t, t ∈ tasks st → Task.id t ≠ task_id)
  ∧ ((get_task task_id st).2 = Responded (NotFoundBody "Task not found" task_id) 404
     ∨ ∃ t, t ∈ tasks st ∧ Task.id t = task_id
            ∧ (get_task task_id st).2 = Responded (TaskBody t "success") 200).
Proof.
  rewrite get_task_eq. cbn. rewrite <- find_task_None.
  destruct (find_task task_id (tasks st)) as [[i t]|] eqn:Hf.
  - split_and!; [done|split; done|]. right. exists t.
    apply find_task_lookup in Hf as [Hi Hid].
    split_and!; [|done..]. by eapply list_elem_of_lookup_2.
  - split_and!; [done|done|by left].
Qed.

(** ** Further properties: create_task *)

(** X3. In a store reached from the initial one, after a successful
    [create_task] the task it returned is the one [get_task] answers for
    the new id. *)
Theorem create_task_then_get (m : gmap string json) (s now : string) (st : Store) :
  reachable st →
  m !! "title" = Some (JStr s) →
  s ≠ "" →
  ∃ t, (create_task (JObj m) now st).2 = Responded (TaskBody t "created") 201
       ∧ Task.id t = task_counter st
       ∧ get_task (Task.id t) (create_task (JObj m) now st).1
         = ((create_task (JObj m) now st).1, Responded (TaskBody t "success") 200).
Proof.
  intros [Hlt Hnd]%reachable_wf Ht Hs.
  rewrite (create_task_sized m (JStr s) (Z.of_nat (String.length s)) now st Ht);
    [|by apply truthy_str|done].
  eexists. split_and!; [done..|]. cbn [fst].
  set (t := new_task m (JStr s) now st).
  assert (wf (created t st)) as [_ Hnd'].
  { pose proof (effect_create_task (JObj m) now st (conj Hlt Hnd)) as He.
    rewrite (create_task_sized m (JStr s) (Z.of_nat (String.length s)) now st Ht)
      in He; [apply He|by apply truthy_str|done]. }
  destruct (find_task_unique (tasks (created t st)) t Hnd') as [i Hf].
  { cbn. set_solver. }
  by apply (get_task_found _ _ i).
Qed.

Lemma create_task_then_get_witness :
  ∃ t, (create_task (JObj {[ "title" := JStr "A" ]}) "2024-02-01T09:30:00" init).2
       = Responded (TaskBody t "created") 201
       ∧ Task.id t = 3
       ∧ get_task (Task.id t)
           (create_task (JObj {[ "title" := JStr "A" ]}) "2024-02-01T09:30:00" init).1
         = ((create_task (JObj {[ "title" := JStr "A" ]}) "2024-02-01T09:30:00" init).1,
            Responded (TaskBody t "success") 200).
Proof.
  apply (create_task_then_get {[ "title" := JStr "A" ]} "A" "2024-02-01T09:30:00" init).
  - exists []. reflexivity.
  - reflexivity.
  - discriminate.
Defined.

(** X4. [create_task] does not disturb the other ids: for every id other
    than the counter value, [get_task] answers after the call what it
    answered before, whatever the payload was. *)
Theorem create_task_keeps_others (data : json) (now : string) (st : Store)
    (other : Z) :
  other ≠ task_counter st →
  (get_task other (create_task data now st).1).2 = (get_task other st).2.
Proof.
  intros Hne.
  destruct (create_task_cases data now st)
    as [(-> & _)|(m & title & _ & _ & _ & ->)]; [done|].
  apply get_task_same_found. cbn. apply find_task_snoc. cbn. congruence.
Qed.

Lemma create_task_keeps_others_witness :
  (get_task 1 (create_task (JObj {[ "title" := JStr "A" ]}) "2024-02-01T09:30:00" init).1).2
  = (get_task 1 init).2.
Proof.
  apply (create_task_keeps_others (JObj {[ "title" := JStr "A" ]})
           "2024-02-01T09:30:00" init 1).
  discriminate.
Defined.

(** X5. A payload that is not a JSON object never creates a task: the
    store stays as it is and the answer is not a 201. *)
Theorem create_task_needs_object (data : json) (now : string) (st : Store) :
  (∀ m, data ≠ JObj m) →
  (create_task data now st).1 = st
  ∧ is_created (create_task data now st).2 = false.
Proof.
  intros Hd.
  destruct (create_task_cases data now st)
    as [(Hst & Hc & _)|(m & title & -> & _)]; [done|].
  by destruct (Hd m).
Qed.

Lemma create_task_needs_object_witness :
  (create_task (JArr [JStr "title"]) "2024-02-01T09:30:00" init).1 = init
  ∧ is_created (create_task (JArr [JStr "title"]) "2024-02-01T09:30:00" init).2 = false.
Proof.
  apply (create_task_needs_object (JArr [JStr "title"]) "2024-02-01T09:30:00" init).
  intros m. discriminate.
Defined.

(** X6. For a JSON object payload, [create_task] raises exactly when the
    title is truthy but has no length (a number or [True]); the exception
    is the one [len] raises, and the store stays as it is. *)
Theorem create_task_raises_iff (m : gmap string json) (now : string) (st : Store)
    (e : exn) :
  ((create_task (JObj m) now st).2 = Raised e
   ↔ ∃ v, m !! "title" = Some v ∧ Py.truthy v = true ∧ Py.len v = inl e)
  ∧ ((create_task (JObj m) now st).2 = Raised e → (create_task (JObj m) now st).1 = st).
Proof.
  unfold create_task. run_monad.
  destruct (Py.truthy (JObj m)) eqn:Hm; cbn.
  2: { split; [|done]. split; [done|]. intros (v & Hv & _).
       cbn in Hm. rewrite negb_false_iff, bool_decide_eq_true in Hm.
       subst m. by rewrite lookup_empty in Hv. }
  destruct (m !! "title") as [v|] eqn:Hv; cbn.
  2: { split; [|done]. split; [done|]. by intros (v & ? & _). }
  destruct (Py.truthy v) eqn:Htv; cbn.
  2: { split; [|done]. split; [done|]. intros (v' & [= <-] & ? & _). congruence. }
  destruct (Py.len v) as [e'|n] eqn:Hn; cbn.
  - split; [|done]. split.
    + intros [= ->]. by exists v.
    + intros (v' & [= <-] & _ & Hl). congruence.
  - destruct (n <? 1); cbn; (split; [|done]); (split; [done|]);
      intros (v' & [= <-] & _ & Hl); congruence.
Qed.

Lemma get_task_not_found_iff_witness :
  (get_task 9999 init).2 = Responded (NotFoundBody "Task not found" 9999) 404.
Proof.
  apply (proj1 (proj2 (get_task_not_found_iff 9999 init))).
  intros t Ht. cbn in Ht.
  apply elem_of_cons in Ht as [->|Ht]; [discriminate|].
  apply elem_of_cons in Ht as [->|Ht]; [discriminate|].
  by apply elem_of_nil in Ht.
Defined.

Lemma create_task_raises_iff_witness :
  (create_task (JObj {[ "title" := JBool true ]}) "2024-02-01T09:30:00" init).2
  = Raised TypeError
  ∧ (create_task (JObj {[ "title" := JBool true ]}) "2024-02-01T09:30:00" init).1
    = init.
Proof.
  assert ((create_task (JObj {[ "title" := JBool true ]}) "2024-02-01T09:30:00" init).2
          = Raised TypeError) as Hr.
  { apply (proj1 (create_task_raises_iff {[ "title" := JBool true ]}
                    "2024-02-01T09:30:00" init TypeError)).
    exists (JBool true). split_and!; reflexivity. }
  split; [exact Hr|].
  exact (proj2 (create_task_raises_iff {[ "title" := JBool true ]}
                  "2024-02-01T09:30:00" init TypeError) Hr).
Defined.

(** ** Further properties: update_task *)

Section UpdateShape.

(** Whatever the payload and the answer, [update_task] leaves the store as
    it is or replaces the found task by one with the same id and
    created_at. *)
Lemma update_task_shape task_id data st :
  (update_task task_id data st).1 = st
  ∨ ∃ i task t,
      find_task task_id (tasks st) = Some (i, task)
      ∧ (update_task task_id data st).1 = put i t st
      ∧ Task.id t = Task.id task
      ∧ Task.created_at t = Task.created_at task.
Proof.
  destruct (find_task task_id (tasks st)) as [[i task]|] eqn:Hf.
  2: { left. by rewrite (update_task_missing _ _ _ Hf). }
  assert ((∃ m, data = JObj m) ∨ ∀ m, data ≠ JObj m) as [[m ->]|Hnd]
    by (destruct data; eauto).
  2: { left. by destruct (update_task_not_dict task_id data st i task Hf Hnd). }
  destruct (decide (m = ∅)) as [->|Hm].
  { left. by rewrite (update_task_empty_dict _ _ _ _ Hf). }
  rewrite (update_task_dict _ _ _ _ _ Hf Hm). unfold finish_update.
  repeat case_match;
    first [ by left
          | right; eexists i, task, _; split_and!; [done|reflexivity|done..] ].
Qed.

(** A 200 answer: the returned task has the requested id and sits where
    the found one was. *)
Lemma update_task_ok_inv task_id data st st' t' :
  update_task task_id data st = (st', Responded (TaskBody t' "updated") 200) →
  ∃ i task,
    find_task task_id (tasks st) = Some (i, task)
    ∧ Task.id t' = task_id
    ∧ st' = put i t' st.
Proof.
  intros Hup.
  destruct (find_task task_id (tasks st)) as [[i task]|] eqn:Hf.
  2: { by rewrite (update_task_missing _ _ _ Hf) in Hup. }
  pose proof (find_task_lookup _ _ _ _ Hf) as [Hi Hid].
  exists i, task. split; [done|].
  assert ((∃ m, data = JObj m) ∨ ∀ m, data ≠ JObj m) as [[m ->]|Hnd]
    by (destruct data; eauto).
  - destruct (decide (m = ∅)) as [->|Hm].
    { by rewrite (update_task_empty_dict _ _ _ _ Hf) in Hup. }
    rewrite (update_task_dict _ _ _ _ _ Hf Hm) in Hup.
    unfold finish_update in Hup.
    repeat case_match; by simplify_eq.
  - destruct (update_task_not_dict task_id data st i task Hf Hnd) as [Hst Hres].
    rewrite Hup in Hst, Hres. cbn in *. subst st'.
    destruct Hres as [[= ->]|[?|[e ?]]]; [|done..].
    split; [done|]. by rewrite put_same.
Qed.

End UpdateShape.

(** X7. After a successful [update_task], [get_task] with the same id
    answers the task the update returned. *)
Theorem update_task_then_get (task_id : Z) (data : json) (st st' : Store)
    (t' : Task.t) :
  update_task task_id data st = (st', Responded (TaskBody t' "updated") 200) →
  get_task task_id st' = (st', Responded (TaskBody t' "success") 200).
Proof.
  intros Hup.
  destruct (update_task_ok_inv task_id data st st' t' Hup)
    as (i & task & Hf & Hid & ->).
  apply (get_task_found _ _ i). cbn. by eapply find_task_put.
Qed.

Lemma update_task_then_get_witness :
  get_task 1 (update_task 1 (JObj {[ "description" := JStr "" ]}) init).1
  = ((update_task 1 (JObj {[ "description" := JStr "" ]}) init).1,
     Responded (TaskBody (Task.mk 1 (JStr "Setup CI/CD Pipeline") (JStr "")
                                  (JBool false) "2024-01-15T10:00:00Z")
                         "success") 200).
Proof.
  apply (update_task_then_get 1 (JObj {[ "description" := JStr "" ]}) init).
  vm_compute. reflexivity.
Defined.

(** X8. When the payload of [update_task] is a JSON object whose title is
    given and falsy, the answer is 400 "Title cannot be empty" and nothing
    is written, also not a description or a completed given with it. *)
Theorem update_task_falsy_title (task_id : Z) (m : gmap string json) (st : Store)
    (i : nat) (task : Task.t) (v : json) :
  find_task task_id (tasks st) = Some (i, task) →
  m !! "title" = Some v →
  Py.truthy v = false →
  update_task task_id (JObj m) st
  = (st, Responded (ErrorBody "Title cannot be empty") 400).
Proof.
  intros Hf Hv Htv.
  assert (m ≠ ∅) as Hm by (intros ->; by rewrite lookup_empty in Hv).
  by rewrite (update_task_dict _ _ _ _ _ Hf Hm), Hv, Htv.
Qed.

Lemma update_task_falsy_title_witness :
  update_task 1 (JObj {[ "title" := JStr ""; "description" := JStr "kept out" ]}) init
  = (init, Responded (ErrorBody "Title cannot be empty") 400).
Proof.
  apply (update_task_falsy_title 1
           {[ "title" := JStr ""; "description" := JStr "kept out" ]} init 0%nat
           (Task.mk 1 (JStr "Setup CI/CD Pipeline") (JStr "Configure GitHub Actions")
                    (JBool false) "2024-01-15T10:00:00Z")
           (JStr "")).
  - reflexivity.
  - reflexivity.
  - reflexivity.
Defined.

(** X9. For a stored task and a falsy payload (None, an empty object,
    false, 0, an empty string or list), [update_task] answers 400 "Request
    body is required" and leaves the store as it is. *)
Theorem update_task_falsy_body (task_id : Z) (data : json) (st : Store) (t : Task.t) :
  t ∈ tasks st →
  Task.id t = task_id →
  Py.truthy data = false →
  update_task task_id data st
  = (st, Responded (ErrorBody "Request body is required") 400).
Proof.
  intros Ht Hid Hd.
  destruct (list_find_elem_of (λ x, Task.id x = task_id) (tasks st) t Ht Hid)
    as [[i task] Hf].
  unfold update_task, find_task. run_monad. by rewrite Hf, Hd.
Qed.

Lemma update_task_falsy_body_witness :
  update_task 2 (JObj ∅) init
  = (init, Responded (ErrorBody "Request body is required") 400).
Proof.
  apply (update_task_falsy_body 2 (JObj ∅) init
           (Task.mk 2 (JStr "Write Unit Tests") (JStr "Create comprehensive test suite")
                    (JBool false) "2024-01-15T11:00:00Z")).
  - cbn. right. left.
  - reflexivity.
  - reflexivity.
Defined.

(** X10. For a stored task and a non-empty JSON object whose title is
    absent or truthy and whose completed is absent or a bool,
    [update_task] answers 200 with the stored task in which exactly the
    given fields are replaced, and stores it at the same position. *)
Theorem update_task_succeeds (task_id : Z) (m : gmap string json) (st : Store)
    (i : nat) (task : Task.t) :
  find_task task_id (tasks st) = Some (i, task) →
  m ≠ ∅ →
  (∀ v, m !! "title" = Some v → Py.truthy v = true) →
  (∀ c, m !! "completed" = Some c → Py.is_bool c = true) →
  let t := {| Task.id := Task.id task;
              Task.title := default (Task.title task) (m !! "title");
              Task.description := default (Task.description task) (m !! "description");
              Task.completed := default (Task.completed task) (m !! "completed");
              Task.created_at := Task.created_at task |} in
  update_task task_id (JObj m) st
  = ({| tasks := <[i := t]> (tasks st); task_counter := task_counter st |},
     Responded (TaskBody t "updated") 200).
Proof.
  intros Hf Hm Ht Hc t. subst t.
  rewrite (update_task_dict _ _ _ _ _ Hf Hm).
  unfold finish_update, put, retitled, Task.set_completed. cbn.
  destruct (m !! "title") as [v|]; [rewrite (Ht v eq_refl)|];
    (destruct (m !! "completed") as [c|]; [rewrite (Hc c eq_refl)|]); done.
Qed.

Lemma update_task_succeeds_witness :
  update_task 2 (JObj {[ "title" := JStr "T"; "completed" := JBool true ]}) init
  = ({| tasks :=
          [ Task.mk 1 (JStr "Setup CI/CD Pipeline") (JStr "Configure GitHub Actions")
                    (JBool false) "2024-01-15T10:00:00Z";
            Task.mk 2 (JStr "T") (JStr "Create comprehensive test suite")
                    (JBool true) "2024-01-15T11:00:00Z" ];
        task_counter := 3 |},
     Responded (TaskBody (Task.mk 2 (JStr "T") (JStr "Create comprehensive test suite")
                                  (JBool true) "2024-01-15T11:00:00Z") "updated") 200).
Proof.
  etrans.
  - apply (update_task_succeeds 2
             {[ "title" := JStr "T"; "completed" := JBool true ]} init 1%nat
             (Task.mk 2 (JStr "Write Unit Tests") (JStr "Create comprehensive test suite")
                      (JBool false) "2024-01-15T11:00:00Z")).
    + reflexivity.
    + intros H. apply (f_equal (lookup "title")) in H. discriminate H.
    + intros v Hv. vm_compute in Hv. injection Hv as <-. reflexivity.
    + intros c Hc. vm_compute in Hc. injection Hc as <-. reflexivity.
  - vm_compute. reflexivity.
Defined.

(** X11. Whatever the payload and whatever the answer, [update_task] keeps
    the ids and the created_at values of the stored tasks, position by
    position, and does not move the counter. *)
Theorem update_task_keeps_ids (task_id : Z) (data : json) (st : Store) :
  Task.id <$> tasks (update_task task_id data st).1 = Task.id <$> tasks st
  ∧ Task.created_at <$> tasks (update_task task_id data st).1
    = Task.created_at <$> tasks st
  ∧ task_counter (update_task task_id data st).1 = task_counter st.
Proof.
  destruct (update_task_shape task_id data st)
    as [->|(i & task & t & Hf & -> & Hid & Hcr)]; [done|].
  apply find_task_lookup in Hf as [Hi _]. cbn.
  rewrite !list_fmap_insert, Hid, Hcr.
  split_and!; [| |done]; apply list_insert_id; by rewrite list_lookup_fmap, Hi.
Qed.

(** X12. [update_task] does not disturb the other ids: for every id other
    than the requested one, [get_task] answers after the call what it
    answered before. *)
Theorem update_task_keeps_others (task_id other : Z) (data : json) (st : Store) :
  other ≠ task_id →
  (get_task other (update_task task_id data st).1).2 = (get_task other st).2.
Proof.
  intros Hne.
  destruct (update_task_shape task_id data st)
    as [->|(i & task & t & Hf & -> & Hid & _)]; [done|].
  apply find_task_lookup in Hf as [Hi Htid].
  apply get_task_same_found. cbn.
  apply (find_task_insert other (tasks st) i task t Hi); congruence.
Qed.

Lemma update_task_keeps_others_witness :
  (get_task 2 (update_task 1 (JObj {[ "title" := JStr "T" ]}) init).1).2
  = (get_task 2 init).2.
Proof.
  apply (update_task_keeps_others 1 2 (JObj {[ "title" := JStr "T" ]}) init).
  discriminate.
Defined.

(** X13. A successful [update_task] repeated with the same id and payload
    gives the same answer and leaves the store as the first call left it. *)
Theorem update_task_idempotent (task_id : Z) (data : json) (st st' : Store)
    (t' : Task.t) :
  update_task task_id data st = (st', Responded (TaskBody t' "updated") 200) →
  update_task task_id data st' = (st', Responded (TaskBody t' "updated") 200).
Proof.
  intros Hup.
  destruct (find_task task_id (tasks st)) as [[i task]|] eqn:Hf.
  2: { by rewrite (update_task_missing _ _ _ Hf) in Hup. }
  assert ((∃ m, data = JObj m) ∨ ∀ m, data ≠ JObj m) as [[m ->]|Hnd]
    by (destruct data; eauto).
  2: { destruct (update_task_not_dict task_id data st i task Hf Hnd) as [Hst _].
       rewrite Hup in Hst. cbn in Hst. by subst st'. }
  destruct (decide (m = ∅)) as [->|Hm].
  { by rewrite (update_task_empty_dict _ _ _ _ Hf) in Hup. }
  destruct (update_task_ok_inv _ _ _ _ _ Hup) as (i' & task' & Hf' & Hid & Hst').
  rewrite Hf in Hf'. injection Hf' as <- <-.
  assert (find_task task_id (tasks st') = Some (i, t')) as Hf2.
  { subst st'. cbn. by eapply find_task_put. }
  rewrite (update_task_dict _ _ _ _ _ Hf Hm) in Hup.
  rewrite (update_task_dict _ _ _ _ _ Hf2 Hm).
  unfold finish_update, retitled, Task.set_completed, put in *.
  destruct (m !! "title") as [v|]; [destruct (Py.truthy v); [|done]|];
    (destruct (m !! "description") as [d|]);
    (destruct (m !! "completed") as [c|]; [destruct (Py.is_bool c); [|done]|]);
    simplify_eq/=; by rewrite list_insert_insert_eq.
Qed.

Lemma update_task_idempotent_witness :
  update_task 1 (JObj {[ "completed" := JBool true ]})
    (update_task 1 (JObj {[ "completed" := JBool true ]}) init).1
  = update_task 1 (JObj {[ "completed" := JBool true ]}) init.
Proof.
  etrans.
  - apply (update_task_idempotent 1 (JObj {[ "completed" := JBool true ]}) init
             (update_task 1 (JObj {[ "completed" := JBool true ]}) init).1
             (Task.mk 1 (JStr "Setup CI/CD Pipeline") (JStr "Configure GitHub Actions")
                      (JBool true) "2024-01-15T10:00:00Z")).
    vm_compute. reflexivity.
  - vm_compute. reflexivity.
Defined.

(** X14. A payload that is not a JSON object never makes [update_task]
    write anything: the store stays as it is, whether the handler answers
    or raises. *)
Theorem update_task_needs_object (task_id : Z) (data : json) (st : Store) :
  (∀ m, data ≠ JObj m) →
  (update_task task_id data st).1 = st.
Proof.
  intros Hnd.
  destruct (find_task task_id (tasks st)) as [[i task]|] eqn:Hf.
  - by destruct (update_task_not_dict task_id data st i task Hf Hnd).
  - by rewrite (update_task_missing _ _ _ Hf).
Qed.

Lemma update_task_needs_object_witness :
  (update_task 1 (JArr [JStr "title"]) init).1 = init.
Proof.
  apply (update_task_needs_object 1 (JArr [JStr "title"]) init).
  intros m. discriminate.
Defined.

(** X15. With a JSON object as payload [update_task] never raises. *)
Theorem update_task_object_no_raise (task_id : Z) (m : gmap string json)
    (st : Store) (e : exn) :
  (update_task task_id (JObj m) st).2 ≠ Raised e.
Proof.
  destruct (find_task task_id (tasks st)) as [[i task]|] eqn:Hf.
  2: { by rewrite (update_task_missing _ _ _ Hf). }
  destruct (decide (m = ∅)) as [->|Hm].
  { by rewrite (update_task_empty_dict _ _ _ _ Hf). }
  rewrite (update_task_dict _ _ _ _ _ Hf Hm). unfold finish_update.
  repeat case_match; done.
Qed.

(** ** Further properties: delete_task *)

(** X16. [delete_task] called a second time with the same id answers 404
    and changes nothing, in every store. *)
Theorem delete_task_twice (task_id : Z) (st : Store) :
  delete_task task_id (delete_task task_id st).1
  = ((delete_task task_id st).1,
     Responded (NotFoundBody "Task not found" task_id) 404).
Proof.
  apply delete_task_missing, find_task_None.
  destruct (find_task task_id (tasks st)) as [[i task]|] eqn:Hf.
  - rewrite (delete_task_found _ _ _ _ Hf). cbn.
    intros t Ht. by apply list_elem_of_filter in Ht as [Hid _].
  - rewrite (delete_task_missing _ _ Hf). cbn. by apply find_task_None.
Qed.

(** X17. [delete_task] does not disturb the other ids: for every id other
    than the deleted one, [get_task] answers after the call what it
    answered before. *)
Theorem delete_task_keeps_others (task_id other : Z) (st : Store) :
  other ≠ task_id →
  (get_task other (delete_task task_id st).1).2 = (get_task other st).2.
Proof.
  intros Hne.
  destruct (find_task task_id (tasks st)) as [[i task]|] eqn:Hf.
  - rewrite (delete_task_found _ _ _ _ Hf). cbn [fst].
    apply get_task_same_found. cbn. by apply find_task_filter.
  - by rewrite (delete_task_missing _ _ Hf).
Qed.

Lemma delete_task_keeps_others_witness :
  (get_task 2 (delete_task 1 init).1).2 = (get_task 2 init).2.
Proof.
  apply (delete_task_keeps_others 1 2 init). discriminate.
Defined.

(** X18. [delete_task] never raises, never moves the counter, and answers
    404 exactly when no stored task has the id; every task it keeps was
    stored before, and no task with the id is left. *)
Theorem delete_task_outcome (task_id : Z) (st : Store) :
  task_counter (delete_task task_id st).1 = task_counter st
  ∧ ((delete_task task_id st).2 = Responded (NotFoundBody "Task not found" task_id) 404
     ↔ ∀ t, t ∈ tasks st → Task.id t ≠ task_id)
  ∧ ((delete_task task_id st).2 = Responded (NotFoundBody "Task not found" task_id) 404
     ∨ (delete_task task_id st).2
       = Responded (DeletedBody "Task deleted successfully" task_id "deleted") 200)
  ∧ (∀ t, t ∈ tasks (delete_task task_id st).1
          ↔ t ∈ tasks st ∧ Task.id t ≠ task_id).
Proof.
  rewrite <- find_task_None.
  destruct (find_task task_id (tasks st)) as [[i task]|] eqn:Hf.
  - rewrite (delete_task_found _ _ _ _ Hf). cbn.
    split_and!; [done|split; done|by right|].
    intros t. rewrite list_elem_of_filter. split; intros [? ?]; done.
  - rewrite (delete_task_missing _ _ Hf). cbn.
    split_and!; [done|done|by left|].
    rewrite find_task_None in Hf.
    intros t. split; [intros Ht; split; [done|by apply Hf]|by intros [? _]].
Qed.

Lemma delete_task_outcome_witness :
  (delete_task 9999 init).2 = Responded (NotFoundBody "Task not found" 9999) 404.
Proof.
  apply (proj1 (proj2 (delete_task_outcome 9999 init))).
  intros t Ht. cbn in Ht.
  apply elem_of_cons in Ht as [->|Ht]; [discriminate|].
  apply elem_of_cons in Ht as [->|Ht]; [discriminate|].
  by apply elem_of_nil in Ht.
Defined.

(** ** Further properties: invariants of the store *)

Section StoreInvariants.

Lemma run_preserves (P : Store → Prop) :
  (∀ r st, P st → P (handle r st).1) →
  ∀ rs st, P st → P (run rs st).1.
Proof.
  intros Hstep rs. induction rs as [|r rs IH]; intros st HP; [done|].
  rewrite run_cons. cbn [fst]. by apply IH, Hstep.
Qed.

(** Ids after a call were there before, or are the counter value. *)
Lemma handle_ids r st n :
  n ∈ ids (handle r st).1 → n ∈ ids st ∨ n = task_counter st.
Proof.
  destruct r as [|task_id|data now|task_id data|task_id]; cbn [handle].
  - by left.
  - rewrite get_task_eq. by left.
  - destruct (create_task_cases data now st)
      as [(-> & _)|(m & title & _ & _ & _ & ->)]; [by left|].
    unfold ids. cbn. rewrite fmap_app. cbn.
    intros [?|Hn%list_elem_of_singleton]%elem_of_app; [by left|by right].
  - destruct (update_task_shape task_id data st)
      as [->|(i & task & t & Hf & -> & Hid & _)]; [by left|].
    apply find_task_lookup in Hf as [Hi _].
    rewrite (ids_put _ _ _ _ Hi Hid). by left.
  - destruct (find_task task_id (tasks st)) as [[i task]|] eqn:Hf.
    + rewrite (delete_task_found _ _ _ _ Hf). unfold ids. cbn.
      intros (t & -> & Ht%list_elem_of_filter)%list_elem_of_fmap. left.
      apply list_elem_of_fmap_2. apply Ht.
    + rewrite (delete_task_missing _ _ Hf). by left.
Qed.

Lemma handle_counter r st :
  task_counter st ≤ task_counter (handle r st).1.
Proof.
  destruct r as [|task_id|data now|task_id data|task_id]; cbn [handle].
  - done.
  - by rewrite get_task_eq.
  - destruct (create_task_cases data now st)
      as [(-> & _)|(m & title & _ & _ & _ & ->)]; [done|]. cbn. lia.
  - destruct (update_task_shape task_id data st)
      as [->|(i & task & t & Hf & -> & _)]; [done|]. done.
  - destruct (find_task task_id (tasks st)) as [[i task]|] eqn:Hf.
    + by rewrite (delete_task_found _ _ _ _ Hf).
    + by rewrite (delete_task_missing _ _ Hf).
Qed.

Lemma handle_titles r st :
  Forall (λ t, Py.truthy (Task.title t) = true) (tasks st) →
  Forall (λ t, Py.truthy (Task.title t) = true) (tasks (handle r st).1).
Proof.
  intros Hall.
  destruct r as [|task_id|data now|task_id data|task_id]; cbn [handle].
  - done.
  - by rewrite get_task_eq.
  - destruct (create_task_cases data now st)
      as [(-> & _)|(m & title & _ & _ & Htt & ->)]; [done|]. cbn.
    apply Forall_app. split; [done|]. by repeat constructor.
  - destruct (find_task task_id (tasks st)) as [[i task]|] eqn:Hf.
    2: { by rewrite (update_task_missing _ _ _ Hf). }
    assert ((∃ m, data = JObj m) ∨ ∀ m, data ≠ JObj m) as [[m ->]|Hnd]
      by (destruct data; eauto).
    2: { by destruct (update_task_not_dict task_id data st i task Hf Hnd) as [-> _]. }
    destruct (decide (m = ∅)) as [->|Hm].
    { by rewrite (update_task_empty_dict _ _ _ _ Hf). }
    apply find_task_lookup in Hf as Hi. destruct Hi as [Hi _].
    assert (Py.truthy (Task.title task) = true) as Hold.
    { rewrite Forall_forall in Hall. apply Hall. by eapply list_elem_of_lookup_2. }
    rewrite (update_task_dict _ _ _ _ _ Hf Hm). unfold finish_update, retitled.
    destruct (m !! "title") as [v|]; [destruct (Py.truthy v) eqn:Hv; [|done]|];
      (destruct (m !! "completed") as [c|]; [destruct (Py.is_bool c)|]);
      cbn; by apply Forall_insert.
  - destruct (find_task task_id (tasks st)) as [[i task]|] eqn:Hf.
    + rewrite (delete_task_found _ _ _ _ Hf). cbn.
      rewrite Forall_forall in Hall |- *.
      intros t [_ Ht]%list_elem_of_filter. by apply Hall.
    + by rewrite (delete_task_missing _ _ Hf).
Qed.

End StoreInvariants.

(** X19. After any sequence of requests from the initial store, the stored
    ids are pairwise distinct, positive and below the counter, and the
    counter is 3 plus the number of successful creates. *)
Theorem store_ids_invariant (rs : list request) :
  NoDup (ids (run rs init).1)
  ∧ Forall (λ n, 0 < n < task_counter (run rs init).1) (ids (run rs init).1)
  ∧ task_counter (run rs init).1 = 3 + count is_created (run rs init).2.
Proof.
  destruct (run_effect rs init wf_init) as ([Hlt Hnd] & Hc & _).
  split_and!; [done| |done].
  assert (0 < task_counter (run rs init).1
          ∧ Forall (λ n, 0 < n) (ids (run rs init).1)) as [_ Hpos].
  { apply (run_preserves
             (λ st, 0 < task_counter st ∧ Forall (λ n, 0 < n) (ids st))).
    - intros r st [Hc0 Hall]. split.
      + pose proof (handle_counter r st). lia.
      + rewrite Forall_forall in Hall |- *. intros n Hn.
        destruct (handle_ids r st n Hn) as [?| ->]; [by apply Hall|done].
    - split; [done|]. cbn. repeat constructor. }
  rewrite Forall_forall in Hlt, Hpos |- *. intros n Hn.
  specialize (Hlt n Hn). specialize (Hpos n Hn). lia.
Qed.

(** X20. In every store reached from the initial one, the title of every
    stored task is truthy: no handler stores an empty title. *)
Theorem stored_titles_truthy (st : Store) (t : Task.t) :
  reachable st →
  t ∈ tasks st →
  Py.truthy (Task.title t) = true.
Proof.
  intros [rs <-] Ht.
  assert (Forall (λ t, Py.truthy (Task.title t) = true) (tasks (run rs init).1))
    as Hall.
  { apply (run_preserves
             (λ st, Forall (λ t, Py.truthy (Task.title t) = true) (tasks st))).
    - intros r st. apply handle_titles.
    - cbn. by repeat constructor. }
  rewrite Forall_forall in Hall. by apply Hall.
Qed.

Lemma stored_titles_truthy_witness :
  Py.truthy
    (Task.title
       (Task.mk 3 (JStr "A") (JStr "") (JBool false) "2024-02-01T09:30:00Z"))
  = true.
Proof.
  apply (stored_titles_truthy
           (run [POST_tasks (JObj {[ "title" := JStr "A" ]}) "2024-02-01T09:30:00";
                 DELETE_task 1] init).1).
  - eexists. reflexivity.
  - vm_compute. right. left.
Defined.

(** X21. The status codes: [get_tasks] always answers 200; [get_task] and
    [delete_task] answer 200 or 404 and never raise; [create_task] answers
    201 or 400 or raises; [update_task] answers 200, 400 or 404 or raises. *)
Theorem handle_status_codes (r : request) (st : Store) :
  match (handle r st).2, r with
  | Responded _ code, GET_tasks => code = 200
  | Responded _ code, (GET_task _ | DELETE_task _) => code = 200 ∨ code = 404
  | Responded _ code, POST_tasks _ _ => code = 201 ∨ code = 400
  | Responded _ code, PUT_task _ _ => code = 200 ∨ code = 400 ∨ code = 404
  | Raised _, (POST_tasks _ _ | PUT_task _ _) => True
  | Raised _, _ => False
  end.
Proof.
  destruct r as [|task_id|data now|task_id data|task_id]; cbn [handle].
  - done.
  - rewrite get_task_eq. cbn. destruct (find_task _ _) as [[i t]|]; auto.
  - unfold create_task. run_monad.
    destruct (Py.truthy data) eqn:Hd; cbn; [|by right].
    destruct data as [ | | | |s|l|m]; cbn in *; try done.
    + destruct (Py.str_contains "title" s); cbn; [done|by right].
    + destruct (existsb _ l); cbn; [done|by right].
    + destruct (m !! "title") as [title|]; cbn; [|by right].
      destruct (Py.truthy title); cbn; [|by right].
      destruct (Py.len title) as [e|n]; cbn; [done|].
      destruct (n <? 1); cbn; [by right|by left].
  - destruct (find_task task_id (tasks st)) as [[i task]|] eqn:Hf.
    2: { rewrite (update_task_missing _ _ _ Hf). cbn. auto. }
    assert ((∃ m, data = JObj m) ∨ ∀ m, data ≠ JObj m) as [[m ->]|Hnd]
      by (destruct data; eauto).
    2: { destruct (update_task_not_dict task_id data st i task Hf Hnd)
           as [_ [->|[->|[e ->]]]]; auto. }
    destruct (decide (m = ∅)) as [->|Hm].
    { rewrite (update_task_empty_dict _ _ _ _ Hf). cbn. auto. }
    rewrite (update_task_dict _ _ _ _ _ Hf Hm). unfold finish_update.
    repeat case_match; simplify_eq/=; auto.
  - destruct (find_task task_id (tasks st)) as [[i task]|] eqn:Hf.
    + rewrite (delete_task_found _ _ _ _ Hf). cbn. auto.
    + rewrite (delete_task_missing _ _ Hf). cbn. auto.
Qed.
